(** * The flight lookup relay: [search_flight] and [gradio_search_flight]

    A shallow embedding of [src/flight-info.py] and [src/flight-search.py].
    Both files define the same [search_flight]; the second adds the form
    handler [gradio_search_flight].

    The values the code handles are the values [json.loads] produces; the
    operations on them ([in], subscripting, [.get], truth testing, [str])
    follow Python, including the exceptions they raise.  The process
    environment and the network are inputs: a [World] says what
    [os.getenv] finds and what the HTTP transport answers, and holds the
    texts the interpreter and pydantic give; every computation returns,
    next to its outcome, the list of outbound HTTP calls it made.  The
    [logger] calls write to the log only and are left out. *)

From Stdlib Require Import Floats.SpecFloat.
From stdpp Require Import base option list strings pretty gmap.

Local Open Scope Z_scope.

(** ** Exceptions *)

(** The classes of exception that occur.  All of them derive from
    [Exception].  [RequestError] stands for [httpx.RequestError] and its
    subclasses (connection failures, timeouts, ...); [HTTPStatusError] is
    what [raise_for_status] raises and is not a [RequestError]. *)
Inductive exn_class :=
  | RequestError
  | HTTPStatusError
  | JSONDecodeError
  | TypeError
  | AttributeError
  | KeyError
  | IndexError
  | ValidationError
  | OtherException.

#[global] Instance exn_class_eq_dec : EqDecision exn_class.
Proof. solve_decision. Defined.

(** An exception: its class and its description, the text of [str(e)]. *)
Record exn := Exn { exn_cls : exn_class; exn_descr : string }.

Inductive result (A : Type) :=
  | Returned (a : A)
  | Raised (e : exn).
Arguments Returned {A} a.
Arguments Raised {A} e.

Definition raise {A} (c : exn_class) (descr : string) : result A :=
  Raised (Exn c descr).

#[global] Instance result_ret : MRet result := λ A a, Returned a.

#[global] Instance result_fmap : FMap result := λ A B f r,
  match r with
  | Returned a => Returned (f a)
  | Raised e => Raised e
  end.

#[global] Instance result_bind : MBind result := λ A B k r,
  match r with
  | Returned a => k a
  | Raised e => Raised e
  end.

(** ** JSON values as Python objects *)

(** What [json.loads] builds: [None], [bool], [int], [float], [str],
    [list] and [dict] with string keys.  A dict keeps its insertion
    order; lookup takes the first binding of a key (a parsed dict has at
    most one). *)
#[warnings="-register-all"]
Inductive value :=
  | JNull
  | JBool (b : bool)
  | JInt (n : Z)
  | JFloat (f : spec_float)
  | JStr (s : string)
  | JList (l : list value)
  | JDict (d : list (string * value)).

Definition type_name (v : value) : string :=
  match v with
  | JNull => "NoneType"
  | JBool _ => "bool"
  | JInt _ => "int"
  | JFloat _ => "float"
  | JStr _ => "str"
  | JList _ => "list"
  | JDict _ => "dict"
  end.

Fixpoint dict_lookup (k : string) (d : list (string * value)) : option value :=
  match d with
  | [] => None
  | (k', v) :: d' => if String.eqb k k' then Some v else dict_lookup k d'
  end.

(** [bool(v)]: the truth value Python gives [v] in [if] and [not]. *)
Definition truthy (v : value) : bool :=
  match v with
  | JNull => false
  | JBool b => b
  | JInt n => negb (n =? 0)
  | JFloat (S754_zero _) => false
  | JFloat _ => true
  | JStr s => negb (String.eqb s "")
  | JList l => match l with [] => false | _ => true end
  | JDict d => match d with [] => false | _ => true end
  end.

(** [needle in hay] on two strings: substring test. *)
Definition str_contains (needle hay : string) : bool :=
  match String.index 0 needle hay with
  | Some _ => true
  | None => false
  end.

Definition is_str (k : string) (v : value) : bool :=
  match v with
  | JStr s => String.eqb k s
  | _ => false
  end.

(** [k in v] for a string [k]: key test on a dict, membership on a list,
    substring on a string, [TypeError] on anything else. *)
Definition py_in (k : string) (v : value) : result bool :=
  match v with
  | JDict d => Returned (bool_decide (is_Some (dict_lookup k d)))
  | JList l => Returned (existsb (is_str k) l)
  | JStr s => Returned (str_contains k s)
  | _ => raise TypeError
           ("argument of type '" +:+ type_name v +:+ "' is not iterable")
  end.

(** [v[k]] for a string [k]. *)
Definition py_getitem_key (v : value) (k : string) : result value :=
  match v with
  | JDict d =>
      match dict_lookup k d with
      | Some x => Returned x
      | None => raise KeyError ("'" +:+ k +:+ "'")
      end
  | JList _ => raise TypeError "list indices must be integers or slices, not str"
  | JStr _ => raise TypeError "string indices must be integers, not 'str'"
  | _ => raise TypeError ("'" +:+ type_name v +:+ "' object is not subscriptable")
  end.

(** [v[0]]: the only integer subscript in the code.  On a string it is
    the string of its first character. *)
Definition py_getitem_0 (v : value) : result value :=
  match v with
  | JList l =>
      match l with
      | x :: _ => Returned x
      | [] => raise IndexError "list index out of range"
      end
  | JStr s =>
      match s with
      | String c _ => Returned (JStr (String c EmptyString))
      | EmptyString => raise IndexError "string index out of range"
      end
  | JDict _ => raise KeyError "0"
  | _ => raise TypeError ("'" +:+ type_name v +:+ "' object is not subscriptable")
  end.

(** [v.get(k, default)]: only a dict has the method. *)
Definition py_get (v : value) (k : string) (dflt : value) : result value :=
  match v with
  | JDict d => Returned (default dflt (dict_lookup k d))
  | _ => raise AttributeError
           ("'" +:+ type_name v +:+ "' object has no attribute 'get'")
  end.

(** The line feed, written [\n] in the string literals of the source. *)
Definition newline : string := String (Ascii.ascii_of_nat 10) EmptyString.

(** ** The world outside the program *)

(** An HTTP response as the code sees it: [status_code], [text], what
    [json()] gives (the decoded body, or the decoder's exception), and the
    description httpx puts in the [HTTPStatusError] it raises for this
    response. *)
Record Response := {
  status_code : Z;
  text : string;
  json : result value;
  status_error : string;
}.

(** An outbound HTTP call: [client.get(url, headers=headers)] or
    [client.post(url, json=payload)]. *)
Inductive call :=
  | Get (url : string) (headers : list (string * value))
  | Post (url : string) (payload : value).

(** [environ] is [os.environ] once [load_dotenv()] has run; [transport]
    is the outcome of an outbound call, a response or a raised exception;
    [repr_str] and [repr_float] are the interpreter's [repr] of a [str]
    and of a [float], which the code reaches only when it formats a
    container or a float; [validation_text] is the text pydantic gives
    the [ValidationError] of [FlightInfoResponse] for the fields it
    refuses, each with the value it was given. *)
Record World := {
  environ : gmap string string;
  transport : call → result Response;
  repr_str : string → string;
  repr_float : spec_float → string;
  validation_text : list (string * value) → string;
}.

(** ** Computations: an outcome and the outbound calls made *)

Definition Eff (A : Type) : Type := World → result A * list call.

Definition run {A} (m : Eff A) (w : World) : result A * list call := m w.
Definition outcome {A} (m : Eff A) (w : World) : result A := (run m w).1.
Definition calls {A} (m : Eff A) (w : World) : list call := (run m w).2.

Definition eff_ret {A} (a : A) : Eff A := λ _, (Returned a, []).

Definition eff_bind {A B} (m : Eff A) (k : A → Eff B) : Eff B :=
  λ w,
    match m w with
    | (Returned a, t) => let '(r, t') := k a w in (r, t ++ t')
    | (Raised e, t) => (Raised e, t)
    end.

Definition lift {A} (r : result A) : Eff A := λ _, (r, []).

(** A step that makes no call and whose exception, if it raises one,
    takes its text from the world. *)
Definition in_world {A} (f : World → result A) : Eff A := λ w, (f w, []).

(** [try: m except Exception as e: h e] *)
Definition try_except {A} (m : Eff A) (h : exn → Eff A) : Eff A :=
  λ w,
    match m w with
    | (Returned a, t) => (Returned a, t)
    | (Raised e, t) => let '(r, t') := h e w in (r, t ++ t')
    end.

Declare Scope eff_scope.
Delimit Scope eff_scope with eff.
Notation "x <- m ;; k" := (eff_bind m (λ x, k))
  (at level 100, m at next level, right associativity) : eff_scope.
Notation "m ;;; k" := (eff_bind m (λ _, k))
  (at level 100, right associativity) : eff_scope.

(** [os.getenv(name)]: the value, or [None]. *)
Definition os_getenv (name : string) : Eff value :=
  λ w, (Returned (from_option JStr JNull (environ w !! name)), []).

Definition client_get (url : string) (headers : list (string * value))
  : Eff Response :=
  λ w, (transport w (Get url headers), [Get url headers]).

Definition client_post (url : string) (payload : value) : Eff Response :=
  λ w, (transport w (Post url payload), [Post url payload]).

(** [response.raise_for_status()]: httpx returns on a 2xx status and
    raises [HTTPStatusError] on any other. *)
Definition raise_for_status (response : Response) : result unit :=
  if (200 <=? status_code response) && (status_code response <=? 299)
  then Returned tt
  else raise HTTPStatusError (status_error response).

(** ** The pydantic models *)

Record FlightSearchRequest := { request_flight_number : string }.

Record FlightInfoResponse := {
  flight_number : string;
  origin : string;
  destination : string;
  departure_time : option string;
  arrival_time : option string;
}.

Record FlightSearchErrorResponse := { error : string }.

(** A field annotated [str] accepts a string and nothing else: pydantic
    converts neither [None] nor a number to a string. *)
Definition valid_str (v : value) : option string :=
  match v with
  | JStr s => Some s
  | _ => None
  end.

(** A field annotated [Optional[str]] accepts a string or [None]. *)
Definition valid_optional_str (v : value) : option (option string) :=
  match v with
  | JStr s => Some (Some s)
  | JNull => Some None
  | _ => None
  end.

(** The field [field], given [v], when its annotation refuses it. *)
Definition invalid {A} (field : string) (v : value) (o : option A)
  : list (string * value) :=
  match o with
  | Some _ => []
  | None => [(field, v)]
  end.

(** [FlightInfoResponse(flight_number=.., origin=.., destination=..,
    departure_time=.., arrival_time=..)]: pydantic validates every field
    against its annotation and raises one [ValidationError] for all the
    fields that fail. *)
Definition new_FlightInfoResponse (w : World)
    (flight_number origin destination departure_time arrival_time : value)
  : result FlightInfoResponse :=
  match valid_str flight_number, valid_str origin, valid_str destination,
        valid_optional_str departure_time, valid_optional_str arrival_time with
  | Some n, Some o, Some d, Some dep, Some arr =>
      Returned {| flight_number := n; origin := o; destination := d;
                  departure_time := dep; arrival_time := arr |}
  | n, o, d, dep, arr =>
      raise ValidationError
        (validation_text w
           (invalid "flight_number" flight_number n
            ++ invalid "origin" origin o
            ++ invalid "destination" destination d
            ++ invalid "departure_time" departure_time dep
            ++ invalid "arrival_time" arrival_time arr))
  end.

(** ** [search_flight] (flight-info.py 45-99, flight-search.py 49-104) *)

Definition FLIGHTAWARE_BASE_URL : string :=
  "https://aeroapi.flightaware.com/aeroapi/flights/".

Definition SearchResult : Type := FlightInfoResponse + FlightSearchErrorResponse.

Definition failure (msg : string) : SearchResult := inr {| error := msg |}.

Local Open Scope eff_scope.

(** Lines 86-99 of flight-info.py: the five fields of [flight_info] and
    the construction of the result. *)
Definition first_flight (w : World) (flight_info : value)
  : result SearchResult :=
  flight_number ← py_get flight_info "ident" JNull;
  origin_obj ← py_get flight_info "origin" (JDict []);
  origin ← py_get origin_obj "code" JNull;
  destination_obj ← py_get flight_info "destination" (JDict []);
  destination ← py_get destination_obj "code" JNull;
  departure_obj ← py_get flight_info "actual_departure_time" (JDict []);
  departure_time ← py_get departure_obj "date" JNull;
  arrival_obj ← py_get flight_info "actual_arrival_time" (JDict []);
  arrival_time ← py_get arrival_obj "date" JNull;
  info ← new_FlightInfoResponse w flight_number origin destination
           departure_time arrival_time;
  mret (inl info).

(** Lines 70-85: the status check, the decoding of the body, the test
    [if 'flights' not in data or not data['flights']], whose second
    operand is evaluated only when the first is false, and
    [data['flights'][0]]. *)
Definition read_response (w : World) (response : Response)
  : result SearchResult :=
  if negb (status_code response =? 200) then
    mret (failure ("FlightAware API error: "
                   +:+ pretty (status_code response)
                   +:+ " - " +:+ text response))
  else
    data ← json response;
    has_flights ← py_in "flights" data;
    if negb has_flights then
      mret (failure "No flight information found")
    else
      flights ← py_getitem_key data "flights";
      if negb (truthy flights) then
        mret (failure "No flight information found")
      else
        flight_info ← py_getitem_0 flights;
        first_flight w flight_info.

(** Lines 49-65: the credential, the request, the call. *)
Definition search_flight (request : FlightSearchRequest) : Eff SearchResult :=
  api_key <- os_getenv "FLIGHTAWARE_API_KEY";;
  if negb (truthy api_key) then
    eff_ret (failure "API key is missing")
  else
    let headers := [("x-apikey", api_key)] in
    let flight_number := request_flight_number request in
    let url := FLIGHTAWARE_BASE_URL +:+ flight_number in
    response <- client_get url headers;;
    in_world (λ w, read_response w response).

(** ** Formatting a value in an f-string *)

Definition join (sep : string) (parts : list string) : string :=
  String.concat sep parts.

(** [repr(v)] *)
Fixpoint py_repr (w : World) (v : value) : string :=
  match v with
  | JNull => "None"
  | JBool b => if b then "True" else "False"
  | JInt n => pretty n
  | JFloat f => repr_float w f
  | JStr s => repr_str w s
  | JList l => "[" +:+ join ", " (map (py_repr w) l) +:+ "]"
  | JDict d =>
      "{" +:+ join ", "
                (map (λ kv, repr_str w kv.1 +:+ ": " +:+ py_repr w kv.2) d)
      +:+ "}"
  end.

(** [str(v)], what [{v}] in an f-string inserts: a string as it is,
    anything else as its [repr]. *)
Definition py_str (w : World) (v : value) : string :=
  match v with
  | JStr s => s
  | _ => py_repr w v
  end.

Definition format (v : value) : Eff string :=
  λ w, (Returned (py_str w v), []).

(** ** [gradio_search_flight] (flight-search.py 106-146) *)

Definition lookup_url : string := "http://127.0.0.1:8000/search_flight".

(** The body of the [try] statement, lines 124-141. *)
Definition gradio_try (url : string) (payload : value) : Eff string :=
  response <- client_post url payload;;
  (lift (raise_for_status response);;;
   data <- lift (json response);;
   has_error <- lift (py_in "error" data);;
   if has_error then
     err <- lift (py_getitem_key data "error");;
     err_str <- format err;;
     eff_ret ("Error: " +:+ err_str)
   else
     let flight_info := data in
     number <- lift (py_get flight_info "flight_number" (JStr "N/A"));;
     number_str <- format number;;
     origin <- lift (py_get flight_info "origin" (JStr "N/A"));;
     origin_str <- format origin;;
     destination <- lift (py_get flight_info "destination" (JStr "N/A"));;
     destination_str <- format destination;;
     departure <- lift (py_get flight_info "departure_time" (JStr "N/A"));;
     departure_str <- format departure;;
     arrival <- lift (py_get flight_info "arrival_time" (JStr "N/A"));;
     arrival_str <- format arrival;;
     let output_string :=
       "Flight Number: " +:+ number_str +:+ newline
       +:+ "Origin: " +:+ origin_str +:+ newline
       +:+ "Destination: " +:+ destination_str +:+ newline
       +:+ "Departure Time: " +:+ departure_str +:+ newline
       +:+ "Arrival Time: " +:+ arrival_str in
     eff_ret output_string).

(** The two [except] clauses, lines 143-146: [httpx.RequestError] first,
    then [Exception], which every exception class here derives from. *)
Definition gradio_except (e : exn) : Eff string :=
  match exn_cls e with
  | RequestError =>
      eff_ret ("An error occurred while requesting flight information: "
               +:+ exn_descr e)
  | _ => eff_ret ("An unexpected error occurred: " +:+ exn_descr e)
  end.

Definition gradio_search_flight (flight_number : string) : Eff string :=
  if negb (truthy (JStr flight_number)) then
    eff_ret "Please enter a flight number."
  else
    let payload := JDict [("flight_number", JStr flight_number)] in
    let url := lookup_url in
    try_except (gradio_try url payload) gradio_except.

(** * Vocabulary of the statements *)

(** ** The provider's answer *)

(** The provider call [search_flight] makes for [request] with key [k]. *)
Definition provider_call (k : string) (request : FlightSearchRequest) : call :=
  Get (FLIGHTAWARE_BASE_URL +:+ request_flight_number request)
      [("x-apikey", JStr k)].

(** A credential [k] is configured and the provider answers the call for
    [request] with the response [r]. *)
Definition provider_answers (w : World) (request : FlightSearchRequest)
    (k : string) (r : Response) : Prop :=
  environ w !! "FLIGHTAWARE_API_KEY" = Some k ∧ k ≠ "" ∧
  transport w (provider_call k request) = Returned r.

(** [s] occurs in [t]. *)
Definition occurs_in (s t : string) : Prop :=
  ∃ before after, t = before +:+ s +:+ after.

(** ** Worlds and responses of the examples *)

(** A world with the given credential, if any, in which every outbound
    call gets the same answer.  Its three texts are stand-ins: no
    statement depends on them. *)
Definition world_of (key : option string) (answer : result Response) : World :=
  {| environ := from_option (λ k, {[ "FLIGHTAWARE_API_KEY" := k ]}) ∅ key;
     transport := λ _, answer;
     repr_str := λ s, "'" +:+ s +:+ "'";
     repr_float := λ _, "nan";
     validation_text := λ refused, String.concat ", " refused.*1 |}.

Definition response_of (status : Z) (body : string) (decoded : result value)
  : Response :=
  {| status_code := status; text := body; json := decoded;
     status_error := "Client error" |}.

Definition UAL123 : FlightSearchRequest := {| request_flight_number := "UAL123" |}.

Definition unreachable : result Response :=
  raise RequestError "All connection attempts failed".

Definition not_found : Response :=
  response_of 404 "not found" (Raised (Exn JSONDecodeError "Expecting value")).

(** ** The fields of the first flight *)

(** The four keys the mapping reads through, and the key it reads in
    each. *)
Definition nested_keys : list (string * string) :=
  [("origin", "code"); ("destination", "code");
   ("actual_departure_time", "date"); ("actual_arrival_time", "date")].

Definition is_object (v : value) : bool :=
  match v with
  | JDict _ => true
  | _ => false
  end.

(** [outer] is absent from the flight or bound to an object. *)
Definition absent_or_object (fi : list (string * value)) (outer : string) : Prop :=
  ∀ v, dict_lookup outer fi = Some v → is_object v = true.

(** The value at [outer.inner], if both keys are there. *)
Definition nested_key (fi : list (string * value)) (outer inner : string)
  : option value :=
  match dict_lookup outer fi with
  | Some (JDict o) => dict_lookup inner o
  | _ => None
  end.

Definition no_get (v : value) : exn :=
  Exn AttributeError ("'" +:+ type_name v +:+ "' object has no attribute 'get'").

(** A credential is configured and the provider answers [request] with
    the 200 response [r], whose body is an object whose [flights] is the
    list [JDict fi :: rest]. *)
Definition answers_with_flights (w : World) (request : FlightSearchRequest)
    (r : Response) (fi : list (string * value)) (rest : list value) : Prop :=
  (∃ k, provider_answers w request k r) ∧
  status_code r = 200 ∧
  ∃ d, json r = Returned (JDict d) ∧
       dict_lookup "flights" d = Some (JList (JDict fi :: rest)).

(** A 200 response whose body is an object with the given [flights]
    (the text of a 200 response is not read). *)
Definition flights_response (flights : list value) : Response :=
  response_of 200 "" (Returned (JDict [("flights", JList flights)])).

Definition empty_flights : Response := flights_response [].

(** A first flight whose [origin] is [null]. *)
Definition null_origin : list (string * value) :=
  [("ident", JStr "UAL123"); ("origin", JNull);
   ("destination", JDict [("code", JStr "ORD")])].

(** The body of the example in the specification. *)
Definition example_flight : list (string * value) :=
  [("ident", JStr "UAL123");
   ("origin", JDict [("code", JStr "SFO")]);
   ("destination", JDict [("code", JStr "ORD")]);
   ("actual_departure_time", JDict [("date", JStr "2024-01-01T10:00Z")]);
   ("actual_arrival_time", JDict [])].

Definition example_body : value :=
  JDict [("flights", JList [JDict example_flight])].

(** A second flight, to follow the first in a list. *)
Definition later_flight : value :=
  JDict [("ident", JStr "UAL123"); ("origin", JDict [("code", JStr "ORD")])].

(** A flight with all five nested keys whose [origin.code] is [null]. *)
Definition null_code_flight : list (string * value) :=
  [("ident", JStr "UAL123");
   ("origin", JDict [("code", JNull)]);
   ("destination", JDict [("code", JStr "ORD")]);
   ("actual_departure_time", JDict [("date", JStr "2024-01-01T10:00Z")]);
   ("actual_arrival_time", JDict [("date", JStr "2024-01-01T14:05Z")])].

(** A flight with all five nested keys that has not landed: its arrival
    [date] is [null]. *)
Definition airborne_flight : list (string * value) :=
  [("ident", JStr "UAL123");
   ("origin", JDict [("code", JStr "SFO")]);
   ("destination", JDict [("code", JStr "ORD")]);
   ("actual_departure_time", JDict [("date", JStr "2024-01-01T10:00Z")]);
   ("actual_arrival_time", JDict [("date", JNull)])].

Definition is_text (v : value) : bool :=
  match v with
  | JStr _ => true
  | _ => false
  end.

(** The example of the specification without its [ident]. *)
Definition anonymous_flight : list (string * value) :=
  [("origin", JDict [("code", JStr "SFO")]);
   ("destination", JDict [("code", JStr "ORD")]);
   ("actual_departure_time", JDict [("date", JStr "2024-01-01T10:00Z")]);
   ("actual_arrival_time", JDict [])].

Definition time_keys : list string :=
  ["actual_departure_time"; "actual_arrival_time"].

(** A time that may be stored in the model: a string or [null]. *)
Definition time_or_null (v : value) : bool :=
  match v with
  | JStr _ | JNull => true
  | _ => false
  end.

(** The time [t] of a result against the value [v] at the nested key it
    is read from: the same string, or no time for a key that is missing
    or bound to [null]. *)
Definition time_matches (t : option string) (v : option value) : Prop :=
  match t, v with
  | Some s, Some (JStr s') => s = s'
  | None, None | None, Some JNull => True
  | _, _ => False
  end.

(** ** The form handler *)

(** The call [gradio_search_flight] makes for a flight number. *)
Definition lookup_call (flight_number : string) : call :=
  Post lookup_url (JDict [("flight_number", JStr flight_number)]).

(** The text the two [except] clauses make of an exception. *)
Definition exception_text (e : exn) : string :=
  (if bool_decide (exn_cls e = RequestError)
   then "An error occurred while requesting flight information: "
   else "An unexpected error occurred: ")
  +:+ exn_descr e.

(** What the five-line block shows for [key]: the text of its value, or
    N/A when the key is absent. *)
Definition shown (w : World) (d : list (string * value)) (key : string) : string :=
  py_str w (default (JStr "N/A") (dict_lookup key d)).

Definition five_lines (number origin destination departure arrival : string)
  : string :=
  "Flight Number: " +:+ number +:+ newline
  +:+ "Origin: " +:+ origin +:+ newline
  +:+ "Destination: " +:+ destination +:+ newline
  +:+ "Departure Time: " +:+ departure +:+ newline
  +:+ "Arrival Time: " +:+ arrival.

(** The Lookup Service answers the call for [flight_number] with a 2xx
    response whose body decodes to the object [d]. *)
Definition lookup_answers (w : World) (flight_number : string)
    (d : list (string * value)) : Prop :=
  flight_number ≠ "" ∧
  ∃ r, transport w (lookup_call flight_number) = Returned r ∧
       raise_for_status r = Returned tt ∧
       json r = Returned (JDict d).

(** The success variant as the JSON object pydantic writes a model to:
    every field is there, a time that is [None] as [null]. *)
Definition FlightInfoResponse_json (info : FlightInfoResponse) : value :=
  JDict [("flight_number", JStr (flight_number info));
         ("origin", JStr (origin info));
         ("destination", JStr (destination info));
         ("departure_time", from_option JStr JNull (departure_time info));
         ("arrival_time", from_option JStr JNull (arrival_time info))].

(** The result of the example in the specification, which has no arrival
    time. *)
Definition example_result : FlightInfoResponse :=
  {| flight_number := "UAL123";
     origin := "SFO";
     destination := "ORD";
     departure_time := Some "2024-01-01T10:00Z";
     arrival_time := None |}.

Definition example_world : World :=
  world_of None
    (Returned (response_of 200 "" (Returned (FlightInfoResponse_json example_result)))).

(** ** Vocabulary of the further properties *)

(** What the block shows for a key that is absent or bound to a string. *)
Definition text_or_na (d : list (string * value)) (key : string) : string :=
  match dict_lookup key d with
  | Some (JStr s) => s
  | _ => "N/A"
  end.

Definition absent_or_text (d : list (string * value)) (key : string) : Prop :=
  dict_lookup key d = None ∨ ∃ s, dict_lookup key d = Some (JStr s).

(** The five keys [gradio_search_flight] reads from a result. *)
Definition result_keys : list string :=
  ["flight_number"; "origin"; "destination"; "departure_time"; "arrival_time"].

(** A computation that makes no outbound call, in any world. *)
Definition silent {A} (m : Eff A) : Prop := ∀ w, calls m w = [].

(** Responses of the examples. *)
Definition undecodable : Response :=
  response_of 200 "<html>Bad gateway</html>"
    (raise JSONDecodeError "Expecting value: line 1 column 1 (char 0)").

Definition body_response (data : value) : Response :=
  response_of 200 "" (Returned data).

Definition bad_gateway : Response :=
  {| status_code := 502; text := "Bad Gateway";
     json := Returned (JDict [("error", JStr "upstream")]);
     status_error := "Server error '502 Bad Gateway'" |}.

Definition partial_result : list (string * value) :=
  [("flight_number", JStr "UAL123"); ("origin", JStr "SFO")].

(** * Properties *)

(** ** Running computations *)

Lemma run_ret {A} (a : A) w : run (eff_ret a) w = (Returned a, []).
Proof. reflexivity. Qed.

Lemma run_lift {A} (r : result A) w : run (lift r) w = (r, []).
Proof. reflexivity. Qed.

Lemma run_in_world {A} (f : World → result A) w : run (in_world f) w = (f w, []).
Proof. reflexivity. Qed.

Lemma run_bind_returned {A B} (m : Eff A) (k : A → Eff B) w a t :
  run m w = (Returned a, t) →
  run (eff_bind m k) w = ((run (k a) w).1, t ++ (run (k a) w).2).
Proof. unfold run, eff_bind. intros ->. by destruct (k a w). Qed.

Lemma run_bind_raised {A B} (m : Eff A) (k : A → Eff B) w e t :
  run m w = (Raised e, t) → run (eff_bind m k) w = (Raised e, t).
Proof. unfold run, eff_bind. by intros ->. Qed.

Lemma run_bind_lift {A B} (r : result A) (k : A → Eff B) w :
  run (eff_bind (lift r) k) w =
    match r with
    | Returned a => run (k a) w
    | Raised e => (Raised e, [])
    end.
Proof.
  destruct r as [a|e].
  - rewrite (run_bind_returned _ _ _ a []) by done. by destruct (run (k a) w).
  - by rewrite (run_bind_raised _ _ _ e []).
Qed.

Lemma run_os_getenv name w :
  run (os_getenv name) w
  = (Returned (from_option JStr JNull (environ w !! name)), []).
Proof. reflexivity. Qed.

Lemma run_client_get url headers w :
  run (client_get url headers) w
  = (transport w (Get url headers), [Get url headers]).
Proof. reflexivity. Qed.

Lemma run_client_post url payload w :
  run (client_post url payload) w
  = (transport w (Post url payload), [Post url payload]).
Proof. reflexivity. Qed.

Lemma run_try_returned {A} (m : Eff A) h w a t :
  run m w = (Returned a, t) → run (try_except m h) w = (Returned a, t).
Proof. unfold run, try_except. by intros ->. Qed.

Lemma run_try_raised {A} (m : Eff A) h w e t :
  run m w = (Raised e, t) →
  run (try_except m h) w = ((run (h e) w).1, t ++ (run (h e) w).2).
Proof. unfold run, try_except. intros ->. by destruct (h e w). Qed.

Lemma string_app_empty_r (s : string) : s +:+ "" = s.
Proof.
  induction s as [|c s IH]; [reflexivity|].
  change (String c (s +:+ "") = String c s). by rewrite IH.
Qed.

Lemma string_app_assoc (s1 s2 s3 : string) :
  (s1 +:+ s2) +:+ s3 = s1 +:+ s2 +:+ s3.
Proof.
  induction s1 as [|c s1 IH]; [reflexivity|].
  change (String c ((s1 +:+ s2) +:+ s3) = String c (s1 +:+ s2 +:+ s3)).
  by rewrite IH.
Qed.

Lemma truthy_JStr s : truthy (JStr s) = bool_decide (s ≠ "").
Proof.
  simpl. destruct (String.eqb_spec s "") as [->|Hne]; [done|].
  by rewrite bool_decide_eq_true_2.
Qed.

(** ** The credential check *)

Lemma search_flight_unconfigured request w :
  truthy (from_option JStr JNull (environ w !! "FLIGHTAWARE_API_KEY")) = false →
  run (search_flight request) w
  = (Returned (failure "API key is missing"), []).
Proof.
  intros Hkey. unfold search_flight.
  rewrite (run_bind_returned _ _ _ _ _ (run_os_getenv _ _)), Hkey.
  reflexivity.
Qed.

(** Past the credential check the code makes one call, to the provider,
    and its outcome is what the call gives, read by [read_response]. *)
Lemma search_flight_configured request w k :
  environ w !! "FLIGHTAWARE_API_KEY" = Some k → k ≠ "" →
  run (search_flight request) w
  = (transport w (provider_call k request) ≫= read_response w,
     [provider_call k request]).
Proof.
  intros Henv Hk. unfold search_flight.
  rewrite (run_bind_returned _ _ _ _ _ (run_os_getenv _ _)), Henv.
  simpl from_option.
  rewrite truthy_JStr, bool_decide_eq_true_2 by done. simpl negb. cbv iota zeta.
  fold (provider_call k request).
  destruct (transport w (provider_call k request)) as [r|e] eqn:Hr.
  - rewrite (run_bind_returned _ _ _ r [provider_call k request])
      by (unfold provider_call in *; by rewrite run_client_get, Hr).
    reflexivity.
  - rewrite (run_bind_raised _ _ _ e [provider_call k request])
      by (unfold provider_call in *; by rewrite run_client_get, Hr).
    reflexivity.
Qed.

Lemma search_flight_answered request w k r :
  provider_answers w request k r →
  run (search_flight request) w
  = (read_response w r, [provider_call k request]).
Proof.
  intros (Henv & Hk & Hr). by rewrite (search_flight_configured _ _ k), Hr.
Qed.

Lemma world_of_answers k request r :
  k ≠ "" → provider_answers (world_of (Some k) (Returned r)) request k r.
Proof. intros Hk. split; [|done]. apply lookup_singleton_eq. Qed.

(** X2: an exception of the transport (no connection, a timeout) is not
    caught and not turned into a failure: with a credential configured,
    [search_flight] raises the exception the provider call raised, after
    that one call. *)
Lemma search_flight_transport_error request w k e :
  environ w !! "FLIGHTAWARE_API_KEY" = Some k → k ≠ "" →
  transport w (provider_call k request) = Raised e →
  run (search_flight request) w = (Raised e, [provider_call k request]).
Proof.
  intros Henv Hk He. by rewrite (search_flight_configured _ _ k), He.
Qed.

Lemma search_flight_transport_error_witness :
  run (search_flight UAL123) (world_of (Some "secret") unreachable)
  = (raise RequestError "All connection attempts failed",
     [provider_call "secret" UAL123]).
Proof.
  apply (search_flight_transport_error UAL123
           (world_of (Some "secret") unreachable) "secret");
    [reflexivity | done | reflexivity].
Defined.

Lemma search_flight_one_call request w k :
  environ w !! "FLIGHTAWARE_API_KEY" = Some k → k ≠ "" →
  calls (search_flight request) w = [provider_call k request].
Proof.
  intros Henv Hk. unfold calls. by rewrite (search_flight_configured _ _ k).
Qed.

(** C5: with no credential in the environment, [search_flight] returns
    the failure "API key is missing", raises nothing and makes no
    outbound call, whatever the flight identifier. *)
Theorem search_flight_missing_key (w : World) (request : FlightSearchRequest) :
  environ w !! "FLIGHTAWARE_API_KEY" = None →
  run (search_flight request) w
  = (Returned (failure "API key is missing"), []).
Proof. intros Henv. apply search_flight_unconfigured. by rewrite Henv. Qed.

Lemma search_flight_missing_key_witness :
  environ (world_of None unreachable) !! "FLIGHTAWARE_API_KEY" = None ∧
  run (search_flight UAL123) (world_of None unreachable)
  = (Returned (failure "API key is missing"), []).
Proof. split; [reflexivity|]. apply search_flight_missing_key. reflexivity. Defined.

(** C9: a credential that is set to the empty string is treated as an
    absent one: the failure "API key is missing" and no outbound call. *)
Theorem search_flight_empty_key (w : World) (request : FlightSearchRequest) :
  environ w !! "FLIGHTAWARE_API_KEY" = Some "" →
  run (search_flight request) w
  = (Returned (failure "API key is missing"), []).
Proof. intros Henv. apply search_flight_unconfigured. by rewrite Henv. Qed.

Lemma search_flight_empty_key_witness :
  environ (world_of (Some "") unreachable) !! "FLIGHTAWARE_API_KEY" = Some "" ∧
  run (search_flight UAL123) (world_of (Some "") unreachable)
  = (Returned (failure "API key is missing"), []).
Proof. split; [reflexivity|]. apply search_flight_empty_key. reflexivity. Defined.

(** ** A status other than 200 *)

Lemma read_response_not_200 {w} r :
  status_code r ≠ 200 →
  read_response w r
  = Returned (failure ("FlightAware API error: " +:+ pretty (status_code r)
                       +:+ " - " +:+ text r)).
Proof.
  intros Hs. unfold read_response.
  by destruct (Z.eqb_spec (status_code r) 200).
Qed.

(** C6: when the provider answers with a status other than 200,
    [search_flight] returns the failure variant, and its message contains
    the status code, in decimal, and the raw body text. *)
Theorem search_flight_upstream_error
    (w : World) (request : FlightSearchRequest) (k : string) (r : Response) :
  provider_answers w request k r →
  status_code r ≠ 200 →
  ∃ msg, outcome (search_flight request) w = Returned (failure msg) ∧
         occurs_in (pretty (status_code r)) msg ∧ occurs_in (text r) msg.
Proof.
  intros Hw Hs. unfold outcome. rewrite (search_flight_answered _ _ k r Hw).
  rewrite read_response_not_200 by done. eexists. split; [reflexivity|].
  split.
  - exists "FlightAware API error: ", (" - " +:+ text r). reflexivity.
  - exists ("FlightAware API error: " +:+ pretty (status_code r) +:+ " - "), "".
    by rewrite string_app_empty_r, !string_app_assoc.
Qed.

Lemma search_flight_upstream_error_witness :
  provider_answers (world_of (Some "secret") (Returned not_found))
    UAL123 "secret" not_found ∧
  status_code not_found ≠ 200 ∧
  ∃ msg, outcome (search_flight UAL123)
           (world_of (Some "secret") (Returned not_found))
         = Returned (failure msg) ∧
         occurs_in "404" msg ∧ occurs_in "not found" msg.
Proof.
  split; [by apply world_of_answers|]. split; [done|].
  apply (search_flight_upstream_error _ UAL123 "secret" not_found);
    [by apply world_of_answers | done].
Defined.

(** ** A body without flights *)

Lemma read_response_200 {w} r :
  status_code r = 200 →
  read_response w r
  = (data ← json r;
     has_flights ← py_in "flights" data;
     if negb has_flights then mret (failure "No flight information found")
     else
       flights ← py_getitem_key data "flights";
       if negb (truthy flights) then mret (failure "No flight information found")
       else py_getitem_0 flights ≫= first_flight w).
Proof. intros Hs. unfold read_response. by rewrite Hs. Qed.

(** On an object, the test of line 80 fails exactly when [flights] is
    bound to a value Python takes for true. *)
Lemma read_response_object {w} r d :
  status_code r = 200 → json r = Returned (JDict d) →
  read_response w r
  = match dict_lookup "flights" d with
    | Some flights =>
        if truthy flights then py_getitem_0 flights ≫= first_flight w
        else Returned (failure "No flight information found")
    | None => Returned (failure "No flight information found")
    end.
Proof.
  intros Hs Hd. rewrite read_response_200, Hd by done. simpl.
  destruct (dict_lookup "flights" d) as [flights|]; simpl; [|done].
  by destruct (truthy flights).
Qed.

(** C4: a 200 response whose decoded body is an object that lacks the
    key [flights], or binds it to the empty list, gives the failure
    "No flight information found", not the success variant. *)
Theorem search_flight_no_flights
    (w : World) (request : FlightSearchRequest) (k : string) (r : Response)
    (d : list (string * value)) :
  provider_answers w request k r →
  status_code r = 200 →
  json r = Returned (JDict d) →
  dict_lookup "flights" d = None ∨ dict_lookup "flights" d = Some (JList []) →
  outcome (search_flight request) w
  = Returned (failure "No flight information found").
Proof.
  intros Hw Hs Hd Hflights. unfold outcome.
  rewrite (search_flight_answered _ _ k r Hw). simpl.
  rewrite (read_response_object r d Hs Hd).
  by destruct Hflights as [-> | ->].
Qed.

Lemma search_flight_no_flights_witness :
  provider_answers (world_of (Some "secret") (Returned empty_flights))
    UAL123 "secret" empty_flights ∧
  outcome (search_flight UAL123) (world_of (Some "secret") (Returned empty_flights))
  = Returned (failure "No flight information found").
Proof.
  split; [by apply world_of_answers|].
  apply (search_flight_no_flights _ UAL123 "secret" empty_flights
           [("flights", JList [])]);
    [by apply world_of_answers | done | done | by right].
Defined.

(** X4: the same failure for every value of [flights] that Python takes
    for false, not only the empty list: [null], [false], [0], [0.0], the
    empty string, the empty object. *)
Lemma search_flight_falsy_flights w request k r d flights :
  provider_answers w request k r →
  status_code r = 200 →
  json r = Returned (JDict d) →
  dict_lookup "flights" d = Some flights → truthy flights = false →
  outcome (search_flight request) w
  = Returned (failure "No flight information found").
Proof.
  intros Hw Hs Hd Hf Hfalse. unfold outcome.
  rewrite (search_flight_answered _ _ k r Hw). simpl.
  by rewrite (read_response_object r d Hs Hd), Hf, Hfalse.
Qed.

Lemma search_flight_falsy_flights_witness :
  provider_answers
    (world_of (Some "secret")
       (Returned (body_response (JDict [("flights", JNull)]))))
    UAL123 "secret" (body_response (JDict [("flights", JNull)])) ∧
  outcome (search_flight UAL123)
    (world_of (Some "secret")
       (Returned (body_response (JDict [("flights", JNull)]))))
  = Returned (failure "No flight information found").
Proof.
  split; [by apply world_of_answers|].
  apply (search_flight_falsy_flights _ UAL123 "secret"
           (body_response (JDict [("flights", JNull)]))
           [("flights", JNull)] JNull);
    [by apply world_of_answers | done | done | done | done].
Defined.

(** X5: a 200 response whose body is [null], a boolean or a number is
    not reported as a failure: the test [in] of line 80 raises
    [TypeError], and [search_flight] returns neither variant. *)
Lemma search_flight_scalar_body w request k r data :
  provider_answers w request k r →
  status_code r = 200 →
  json r = Returned data →
  data = JNull ∨ (∃ b, data = JBool b) ∨ (∃ n, data = JInt n)
  ∨ (∃ f, data = JFloat f) →
  outcome (search_flight request) w
  = raise TypeError
      ("argument of type '" +:+ type_name data +:+ "' is not iterable").
Proof.
  intros Hw Hs Hd Hscalar. unfold outcome.
  rewrite (search_flight_answered _ _ k r Hw). simpl.
  rewrite read_response_200, Hd by done.
  by destruct Hscalar as [-> | [[b ->] | [[n ->] | [f ->]]]].
Qed.

Lemma search_flight_scalar_body_witness :
  provider_answers (world_of (Some "secret") (Returned (body_response JNull)))
    UAL123 "secret" (body_response JNull) ∧
  outcome (search_flight UAL123)
    (world_of (Some "secret") (Returned (body_response JNull)))
  = raise TypeError "argument of type 'NoneType' is not iterable".
Proof.
  split; [by apply world_of_answers|].
  apply (search_flight_scalar_body _ UAL123 "secret" (body_response JNull) JNull);
    [by apply world_of_answers | done | done | by left].
Defined.

(** ** The fields of the first flight *)

(** [flight_info.get(outer, {}).get(inner)] on an object [flight_info],
    followed by the rest [K] of the block. *)
Lemma nested_get {B} fi outer inner (K : value → result B) :
  (py_get (default (JDict []) (dict_lookup outer fi)) inner JNull ≫= K)
  = match dict_lookup outer fi with
    | None => K JNull
    | Some (JDict o) => K (default JNull (dict_lookup inner o))
    | Some v => Raised (no_get v)
    end.
Proof.
  simpl. destruct (dict_lookup outer fi) as [v|]; [|done]. by destruct v.
Qed.

Lemma nested_get_object {B} fi outer inner (K : value → result B) :
  absent_or_object fi outer →
  (py_get (default (JDict []) (dict_lookup outer fi)) inner JNull ≫= K)
  = K (default JNull (nested_key fi outer inner)).
Proof.
  intros Hobj. rewrite nested_get. unfold nested_key.
  destruct (dict_lookup outer fi) as [v|] eqn:Hv; [|done].
  specialize (Hobj v Hv). by destruct v.
Qed.

Lemma nested_get_not_object {B} fi outer inner (K : value → result B) v :
  dict_lookup outer fi = Some v → is_object v = false →
  (py_get (default (JDict []) (dict_lookup outer fi)) inner JNull ≫= K)
  = Raised (no_get v).
Proof. intros Hv Hno. rewrite nested_get, Hv. by destruct v. Qed.

(** When each of the four keys is absent or bound to an object, the
    block reads the five values and hands them to the model. *)
Lemma first_flight_objects {w} fi :
  Forall (λ p, absent_or_object fi p.1) nested_keys →
  first_flight w (JDict fi)
  = inl <$> new_FlightInfoResponse w
      (default JNull (dict_lookup "ident" fi))
      (default JNull (nested_key fi "origin" "code"))
      (default JNull (nested_key fi "destination" "code"))
      (default JNull (nested_key fi "actual_departure_time" "date"))
      (default JNull (nested_key fi "actual_arrival_time" "date")).
Proof.
  intros Hobj. unfold first_flight.
  repeat (apply Forall_cons in Hobj as [? Hobj]). simpl.
  do 4 (rewrite nested_get_object by done).
  by destruct (new_FlightInfoResponse _ _ _ _ _ _).
Qed.

(** Only the first element of [flights] is read. *)
Lemma search_flight_first w request r fi rest :
  answers_with_flights w request r fi rest →
  outcome (search_flight request) w = first_flight w (JDict fi).
Proof.
  intros ([k Hw] & Hs & d & Hd & Hf). unfold outcome.
  rewrite (search_flight_answered _ _ k r Hw). simpl.
  by rewrite (read_response_object r d Hs Hd), Hf.
Qed.

(** One step through [first_flight]: the nested key read next is absent
    or an object, and the reading goes on, or it is something else, and
    [.get] raises. *)
Ltac through_nested_key :=
  rewrite nested_get;
  lazymatch goal with
  | H : dict_lookup ?k ?fi = Some ?v
    |- ∃ _, _ ∧ match dict_lookup ?k ?fi with _ => _ end = _ =>
      rewrite H; destruct v; try discriminate;
      eexists; (split; [|reflexivity]); reflexivity
  | |- ∃ _, _ ∧ match dict_lookup ?k ?fi with _ => _ end = _ =>
      destruct (dict_lookup k fi) as [[]|];
      try (eexists; (split; [|reflexivity]); reflexivity)
  end.

(** C10: the extraction is safe only for nested keys that are absent or
    bound to an object.  When the first flight binds [origin],
    [destination], [actual_departure_time] or [actual_arrival_time] to
    something else, [null] in particular, [search_flight] raises the
    [AttributeError] of calling [.get] on a value that is not an object,
    and returns neither variant. *)
Theorem search_flight_nested_not_object
    (w : World) (request : FlightSearchRequest) (r : Response)
    (fi : list (string * value)) (rest : list value)
    (outer inner : string) (v : value) :
  answers_with_flights w request r fi rest →
  (outer, inner) ∈ nested_keys →
  dict_lookup outer fi = Some v →
  is_object v = false →
  ∃ v', is_object v' = false ∧
        outcome (search_flight request) w = Raised (no_get v').
Proof.
  intros Hw Hin Hv Hno. rewrite (search_flight_first _ _ _ _ _ Hw).
  unfold first_flight. simpl.
  unfold nested_keys in Hin. rewrite !elem_of_cons, elem_of_nil in Hin.
  destruct Hin as [[= -> ->]|[[= -> ->]|[[= -> ->]|[[= -> ->]|[]]]]];
    repeat through_nested_key.
Qed.

Lemma world_of_flights k request fi rest :
  k ≠ "" →
  answers_with_flights (world_of (Some k) (Returned (flights_response (JDict fi :: rest))))
    request (flights_response (JDict fi :: rest)) fi rest.
Proof.
  intros Hk. split; [exists k; by apply world_of_answers|].
  split; [done|]. by eexists.
Qed.

Lemma search_flight_nested_not_object_witness :
  answers_with_flights
    (world_of (Some "secret") (Returned (flights_response [JDict null_origin])))
    UAL123 (flights_response [JDict null_origin]) null_origin [] ∧
  dict_lookup "origin" null_origin = Some JNull ∧
  ∃ v', is_object v' = false ∧
        outcome (search_flight UAL123)
          (world_of (Some "secret") (Returned (flights_response [JDict null_origin])))
        = Raised (no_get v').
Proof.
  split; [by apply world_of_flights|]. split; [reflexivity|].
  apply (search_flight_nested_not_object _ UAL123
           (flights_response [JDict null_origin]) null_origin []
           "origin" "code" JNull);
    [by apply world_of_flights | | reflexivity | reflexivity].
  apply list_elem_of_here.
Defined.

(** On that response the exception is the one Python raises for
    [None.get]. *)
Lemma search_flight_null_origin :
  run (search_flight UAL123)
    (world_of (Some "secret") (Returned (flights_response [JDict null_origin])))
  = (raise AttributeError "'NoneType' object has no attribute 'get'",
     [provider_call "secret" UAL123]).
Proof. reflexivity. Qed.

(** ** The mapping of the first flight *)

Lemma nested_key_object fi outer inner v :
  nested_key fi outer inner = Some v → absent_or_object fi outer.
Proof.
  unfold nested_key, absent_or_object. intros Hv u Hu. rewrite Hu in Hv.
  by destruct u.
Qed.

Lemma new_FlightInfoResponse_invalid w n o d dep arr :
  valid_str n = None ∨ valid_str o = None ∨ valid_str d = None
  ∨ valid_optional_str dep = None ∨ valid_optional_str arr = None →
  ∃ descr, new_FlightInfoResponse w n o d dep arr = raise ValidationError descr.
Proof.
  unfold new_FlightInfoResponse. intros Hbad.
  destruct (valid_str n), (valid_str o), (valid_str d),
    (valid_optional_str dep), (valid_optional_str arr);
    try (by eexists).
  by destruct Hbad as [?|[?|[?|[?|?]]]].
Qed.

(** With all five nested keys present, [origin.code] being [null], the
    model refuses the null and [search_flight] raises: the five values
    are not returned as a result. *)
Lemma search_flight_null_code_raises :
  answers_with_flights
    (world_of (Some "secret") (Returned (flights_response [JDict null_code_flight])))
    UAL123 (flights_response [JDict null_code_flight]) null_code_flight [] ∧
  dict_lookup "ident" null_code_flight = Some (JStr "UAL123") ∧
  nested_key null_code_flight "origin" "code" = Some JNull ∧
  nested_key null_code_flight "destination" "code" = Some (JStr "ORD") ∧
  nested_key null_code_flight "actual_departure_time" "date"
  = Some (JStr "2024-01-01T10:00Z") ∧
  nested_key null_code_flight "actual_arrival_time" "date"
  = Some (JStr "2024-01-01T14:05Z") ∧
  ∃ descr,
    outcome (search_flight UAL123)
      (world_of (Some "secret")
         (Returned (flights_response [JDict null_code_flight])))
    = raise ValidationError descr.
Proof.
  split; [by apply world_of_flights|]. repeat (split; [reflexivity|]).
  eexists. reflexivity.
Qed.

(** C2, amended: take a 200 response whose first flight has all five
    nested keys.  If [ident], [origin.code] and [destination.code] are
    bound to strings and each [date] to a string or to [null],
    [search_flight] returns the success variant with exactly these
    values, a null [date] giving no time, whatever follows the first
    flight in the list.  If one of the three is bound to something that
    is not a string, or a [date] to something that is neither a string
    nor [null], the model refuses it and [search_flight] raises a
    [ValidationError].  On the example of the specification, whose
    [actual_arrival_time] has no [date], the result is UAL123, SFO, ORD,
    2024-01-01T10:00Z and no arrival time. *)
Theorem search_flight_maps_first_flight :
  (∀ (w : World) (request : FlightSearchRequest) (r : Response)
     (fi : list (string * value)) (rest : list value)
     (ident origin_code destination_code : string)
     (departure_value arrival_value : value)
     (departure arrival : option string),
     answers_with_flights w request r fi rest →
     dict_lookup "ident" fi = Some (JStr ident) →
     nested_key fi "origin" "code" = Some (JStr origin_code) →
     nested_key fi "destination" "code" = Some (JStr destination_code) →
     nested_key fi "actual_departure_time" "date" = Some departure_value →
     nested_key fi "actual_arrival_time" "date" = Some arrival_value →
     time_matches departure (Some departure_value) →
     time_matches arrival (Some arrival_value) →
     outcome (search_flight request) w
     = Returned (inl {| flight_number := ident;
                        origin := origin_code;
                        destination := destination_code;
                        departure_time := departure;
                        arrival_time := arrival |})) ∧
  (∀ (w : World) (request : FlightSearchRequest) (r : Response)
     (fi : list (string * value)) (rest : list value)
     (ident_value origin_value destination_value : value)
     (departure_value arrival_value : value),
     answers_with_flights w request r fi rest →
     dict_lookup "ident" fi = Some ident_value →
     nested_key fi "origin" "code" = Some origin_value →
     nested_key fi "destination" "code" = Some destination_value →
     nested_key fi "actual_departure_time" "date" = Some departure_value →
     nested_key fi "actual_arrival_time" "date" = Some arrival_value →
     is_text ident_value = false ∨ is_text origin_value = false
     ∨ is_text destination_value = false
     ∨ time_or_null departure_value = false
     ∨ time_or_null arrival_value = false →
     ∃ descr,
       outcome (search_flight request) w = raise ValidationError descr) ∧
  (∀ (w : World) (k : string) (r : Response),
     provider_answers w UAL123 k r →
     status_code r = 200 →
     json r = Returned example_body →
     outcome (search_flight UAL123) w
     = Returned (inl {| flight_number := "UAL123";
                        origin := "SFO";
                        destination := "ORD";
                        departure_time := Some "2024-01-01T10:00Z";
                        arrival_time := None |})).
Proof.
  assert (∀ fi, (∃ v, nested_key fi "origin" "code" = Some v) →
                (∃ v, nested_key fi "destination" "code" = Some v) →
                (∃ v, nested_key fi "actual_departure_time" "date" = Some v) →
                (∃ v, nested_key fi "actual_arrival_time" "date" = Some v) →
                Forall (λ p, absent_or_object fi p.1) nested_keys) as Hobjects.
  { intros fi [? ?] [? ?] [? ?] [? ?].
    repeat constructor; simpl; by eapply nested_key_object. }
  split; [|split].
  - intros w request r fi rest ident o d depv arrv dep arr
      Hw Hi Ho Hd Hdep Harr Hdt Hat.
    rewrite (search_flight_first _ _ _ _ _ Hw), first_flight_objects
      by (apply Hobjects; by eexists).
    rewrite Hi, Ho, Hd, Hdep, Harr. simpl.
    destruct depv, dep; try done; destruct arrv, arr; try done;
      simpl in *; by subst.
  - intros w request r fi rest iv ov dv depv arrv Hw Hi Ho Hd Hdep Harr Hbad.
    rewrite (search_flight_first _ _ _ _ _ Hw), first_flight_objects
      by (apply Hobjects; by eexists).
    rewrite Hi, Ho, Hd, Hdep, Harr. simpl.
    destruct (new_FlightInfoResponse_invalid w iv ov dv depv arrv)
      as [descr ->]; [|by eexists].
    destruct Hbad as [H|[H|[H|[H|H]]]];
      [left | right; left | do 2 right; left | do 3 right; left | do 4 right];
      match goal with
      | |- context [?f ?v] => destruct v; done
      end.
  - intros w k r Hw Hs Hbody.
    rewrite (search_flight_first w UAL123 r example_flight []); [done|].
    split; [by exists k|]. split; [done|].
    by exists [("flights", JList [JDict example_flight])].
Qed.

Lemma search_flight_maps_first_flight_witness :
  answers_with_flights
    (world_of (Some "secret")
       (Returned (flights_response [JDict airborne_flight; later_flight])))
    UAL123 (flights_response [JDict airborne_flight; later_flight])
    airborne_flight [later_flight] ∧
  nested_key airborne_flight "actual_arrival_time" "date" = Some JNull ∧
  outcome (search_flight UAL123)
    (world_of (Some "secret")
       (Returned (flights_response [JDict airborne_flight; later_flight])))
  = Returned (inl {| flight_number := "UAL123";
                     origin := "SFO";
                     destination := "ORD";
                     departure_time := Some "2024-01-01T10:00Z";
                     arrival_time := None |}).
Proof.
  split; [by apply world_of_flights|]. split; [reflexivity|].
  apply (proj1 search_flight_maps_first_flight _ UAL123
           (flights_response [JDict airborne_flight; later_flight])
           airborne_flight [later_flight] "UAL123" "SFO" "ORD"
           (JStr "2024-01-01T10:00Z") JNull);
    [by apply world_of_flights | reflexivity ..].
Defined.

(** ** Missing nested keys *)

(** A missing [ident] is not mapped to a null field of a success
    variant: the model refuses it and [search_flight] raises. *)
Lemma search_flight_missing_ident_raises :
  answers_with_flights
    (world_of (Some "secret") (Returned (flights_response [JDict anonymous_flight])))
    UAL123 (flights_response [JDict anonymous_flight]) anonymous_flight [] ∧
  dict_lookup "ident" anonymous_flight = None ∧
  ∃ descr,
    outcome (search_flight UAL123)
      (world_of (Some "secret")
         (Returned (flights_response [JDict anonymous_flight])))
    = raise ValidationError descr.
Proof.
  split; [by apply world_of_flights|]. split; [reflexivity|].
  eexists. reflexivity.
Qed.

Lemma new_FlightInfoResponse_refused w n o d dep arr :
  valid_str n = None ∨ valid_str o = None ∨ valid_str d = None →
  ∃ descr, new_FlightInfoResponse w n o d dep arr = raise ValidationError descr.
Proof.
  unfold new_FlightInfoResponse. intros Hbad.
  destruct (valid_str n), (valid_str o), (valid_str d);
    try (destruct Hbad as [?|[?|?]]; discriminate);
    destruct (valid_optional_str dep), (valid_optional_str arr); by eexists.
Qed.

Lemma valid_optional_str_time v :
  time_or_null v = true →
  ∃ t, valid_optional_str v = Some t ∧ (v = JNull → t = None).
Proof. destruct v; try done; by eexists. Qed.

(** C1, amended: take a 200 response whose first flight has each of
    [origin], [destination], [actual_departure_time] and
    [actual_arrival_time] absent or bound to an object.  If [ident],
    [origin.code] and [destination.code] are strings and each [date]
    that is present is a string or [null], [search_flight] returns the
    success variant, with these three strings and with no value for each
    time whose nested key is missing.  If [ident], [origin.code] or
    [destination.code] is missing, the model, which declares these three
    fields [str], refuses the null and [search_flight] raises a
    [ValidationError]: it returns neither variant. *)
Theorem search_flight_missing_keys
    (w : World) (request : FlightSearchRequest) (r : Response)
    (fi : list (string * value)) (rest : list value) :
  answers_with_flights w request r fi rest →
  Forall (λ p, absent_or_object fi p.1) nested_keys →
  (∀ ident origin_code destination_code : string,
     dict_lookup "ident" fi = Some (JStr ident) →
     nested_key fi "origin" "code" = Some (JStr origin_code) →
     nested_key fi "destination" "code" = Some (JStr destination_code) →
     (∀ outer v, outer ∈ time_keys →
                 nested_key fi outer "date" = Some v → time_or_null v = true) →
     ∃ info,
       outcome (search_flight request) w = Returned (inl info) ∧
       flight_number info = ident ∧
       origin info = origin_code ∧
       destination info = destination_code ∧
       (nested_key fi "actual_departure_time" "date" = None →
        departure_time info = None) ∧
       (nested_key fi "actual_arrival_time" "date" = None →
        arrival_time info = None)) ∧
  (dict_lookup "ident" fi = None ∨
   nested_key fi "origin" "code" = None ∨
   nested_key fi "destination" "code" = None →
   ∃ descr,
     outcome (search_flight request) w = raise ValidationError descr).
Proof.
  intros Hw Hobj. rewrite (search_flight_first _ _ _ _ _ Hw).
  rewrite (first_flight_objects fi Hobj). split.
  - intros ident o d Hi Ho Hd Htimes. rewrite Hi, Ho, Hd. simpl.
    unfold new_FlightInfoResponse. simpl valid_str.
    destruct (valid_optional_str_time
                (default JNull (nested_key fi "actual_departure_time" "date")))
      as (dep & -> & Hdep).
    { destruct (nested_key fi "actual_departure_time" "date") eqn:E; [|done].
      apply (Htimes "actual_departure_time"); [|done].
      apply list_elem_of_here. }
    destruct (valid_optional_str_time
                (default JNull (nested_key fi "actual_arrival_time" "date")))
      as (arr & -> & Harr).
    { destruct (nested_key fi "actual_arrival_time" "date") eqn:E; [|done].
      apply (Htimes "actual_arrival_time"); [|done].
      apply list_elem_of_further, list_elem_of_here. }
    eexists. split; [reflexivity|]. simpl.
    repeat split; [intros E; apply Hdep | intros E; apply Harr]; by rewrite E.
  - intros Hmissing.
    destruct (new_FlightInfoResponse_refused w
                (default JNull (dict_lookup "ident" fi))
                (default JNull (nested_key fi "origin" "code"))
                (default JNull (nested_key fi "destination" "code"))
                (default JNull (nested_key fi "actual_departure_time" "date"))
                (default JNull (nested_key fi "actual_arrival_time" "date")))
      as [descr ->]; [|by eexists].
    destruct Hmissing as [-> | [-> | ->]]; auto.
Qed.

Lemma search_flight_missing_keys_witness :
  answers_with_flights
    (world_of (Some "secret") (Returned (flights_response [JDict example_flight])))
    UAL123 (flights_response [JDict example_flight]) example_flight [] ∧
  Forall (λ p, absent_or_object example_flight p.1) nested_keys ∧
  nested_key example_flight "actual_arrival_time" "date" = None ∧
  ∃ info,
    outcome (search_flight UAL123)
      (world_of (Some "secret") (Returned (flights_response [JDict example_flight])))
    = Returned (inl info) ∧
    arrival_time info = None.
Proof.
  assert (Forall (λ p, absent_or_object example_flight p.1) nested_keys) as Hobj.
  { repeat constructor; intros v; simpl; intros [= <-]; reflexivity. }
  assert (answers_with_flights
            (world_of (Some "secret")
               (Returned (flights_response [JDict example_flight])))
            UAL123 (flights_response [JDict example_flight]) example_flight [])
    as Hw by (by apply world_of_flights).
  split; [exact Hw|]. split; [exact Hobj|]. split; [reflexivity|].
  destruct (proj1 (search_flight_missing_keys _ _ _ _ _ Hw Hobj)
              "UAL123" "SFO" "ORD" eq_refl eq_refl eq_refl)
    as (info & Hinfo & _ & _ & _ & _ & Harr).
  { intros outer v Hin. unfold time_keys in Hin.
    rewrite !elem_of_cons, elem_of_nil in Hin.
    destruct Hin as [-> | [-> | []]]; simpl; intros [= <-]; reflexivity. }
  exists info. split; [exact Hinfo|]. apply Harr. reflexivity.
Defined.

(** ** The form handler *)

(** C7: on the empty input [gradio_search_flight] returns the prompt
    "Please enter a flight number." and makes no outbound call. *)
Theorem gradio_search_flight_empty (w : World) :
  run (gradio_search_flight "") w
  = (Returned "Please enter a flight number.", []).
Proof. reflexivity. Qed.

Lemma gradio_search_flight_nonempty flight_number :
  flight_number ≠ "" →
  gradio_search_flight flight_number
  = try_except
      (gradio_try lookup_url (JDict [("flight_number", JStr flight_number)]))
      gradio_except.
Proof.
  intros Hne. unfold gradio_search_flight.
  by rewrite truthy_JStr, bool_decide_eq_true_2.
Qed.

Lemma run_gradio_except e w :
  run (gradio_except e) w = (Returned (exception_text e), []).
Proof.
  unfold gradio_except, exception_text. destruct e as [[] descr]; reflexivity.
Qed.

Lemma gradio_search_flight_raised flight_number w e :
  flight_number ≠ "" →
  outcome (gradio_try lookup_url (JDict [("flight_number", JStr flight_number)])) w
  = Raised e →
  outcome (gradio_search_flight flight_number) w = Returned (exception_text e).
Proof.
  intros Hne. rewrite gradio_search_flight_nonempty by done. unfold outcome.
  destruct (run (gradio_try _ _) w) as [res t] eqn:Htry. simpl. intros ->.
  by rewrite (run_try_raised _ _ _ _ _ Htry), run_gradio_except.
Qed.

Lemma gradio_try_transport_error flight_number w e :
  transport w (lookup_call flight_number) = Raised e →
  outcome (gradio_try lookup_url (JDict [("flight_number", JStr flight_number)])) w
  = Raised e.
Proof.
  intros He. unfold outcome, gradio_try.
  by rewrite (run_bind_raised _ _ _ e [lookup_call flight_number])
    by (rewrite run_client_post; by rewrite <- He).
Qed.

(** C8: [gradio_search_flight] returns a string for every input and
    every outcome of its call.  When an exception is raised inside the
    [try] block, by the transport in particular, it is not passed on: the
    string returned is the error text with the exception's description. *)
Theorem gradio_search_flight_total (w : World) (flight_number : string) :
  (∃ s, outcome (gradio_search_flight flight_number) w = Returned s) ∧
  (∀ e, flight_number ≠ "" ∧
        outcome (gradio_try lookup_url
                   (JDict [("flight_number", JStr flight_number)])) w
        = Raised e →
        outcome (gradio_search_flight flight_number) w
        = Returned (exception_text e) ∧
        occurs_in (exn_descr e) (exception_text e)) ∧
  (∀ e, flight_number ≠ "" ∧
        transport w (lookup_call flight_number) = Raised e →
        outcome (gradio_search_flight flight_number) w
        = Returned (exception_text e)).
Proof.
  split; [|split].
  - destruct (decide (flight_number = "")) as [->|Hne]; [by eexists|].
    destruct (outcome (gradio_try lookup_url
                         (JDict [("flight_number", JStr flight_number)])) w)
      as [s|e] eqn:Htry.
    + exists s. rewrite gradio_search_flight_nonempty by done.
      unfold outcome in *.
      destruct (run (gradio_try _ _) w) as [res t] eqn:Hrun.
      simpl in Htry. subst res. by rewrite (run_try_returned _ _ _ _ _ Hrun).
    + exists (exception_text e). by apply gradio_search_flight_raised.
  - intros e [Hne Htry]. split; [by apply gradio_search_flight_raised|].
    eexists _, "". unfold exception_text. by rewrite string_app_empty_r.
  - intros e [Hne He]. apply gradio_search_flight_raised; [done|].
    by apply gradio_try_transport_error.
Qed.

Lemma gradio_search_flight_answered w flight_number d :
  lookup_answers w flight_number d →
  outcome (gradio_search_flight flight_number) w
  = Returned
      (match dict_lookup "error" d with
       | Some err => "Error: " +:+ py_str w err
       | None =>
           five_lines (shown w d "flight_number") (shown w d "origin")
             (shown w d "destination") (shown w d "departure_time")
             (shown w d "arrival_time")
       end).
Proof.
  intros (Hne & r & Hr & Hstatus & Hd).
  rewrite gradio_search_flight_nonempty by done.
  unfold outcome, run, try_except, gradio_try, eff_bind, client_post, lift.
  fold (lookup_call flight_number). rewrite Hr, Hstatus, Hd. simpl.
  by destruct (dict_lookup "error" d).
Qed.

(** A successful result: no [error] key, so the five-line block. *)
Lemma gradio_search_flight_renders w flight_number d :
  lookup_answers w flight_number d →
  dict_lookup "error" d = None →
  outcome (gradio_search_flight flight_number) w
  = Returned
      (five_lines (shown w d "flight_number") (shown w d "origin")
         (shown w d "destination") (shown w d "departure_time")
         (shown w d "arrival_time")).
Proof. intros Hw He. by rewrite (gradio_search_flight_answered w _ d Hw), He. Qed.

(** A field bound to a string is shown as it is, an absent field as N/A,
    and a field that is present and null as None. *)
Lemma shown_text w d key s :
  dict_lookup key d = Some (JStr s) → shown w d key = s.
Proof. unfold shown. by intros ->. Qed.

Lemma shown_absent w d key :
  dict_lookup key d = None → shown w d key = "N/A".
Proof. unfold shown. by intros ->. Qed.

Lemma shown_null w d key :
  dict_lookup key d = Some JNull → shown w d key = "None".
Proof. unfold shown. by intros ->. Qed.

(** C3: the block has the five labelled lines and shows each string
    field as it is, but it does not show N/A for a null field.  On the
    result of the specification's example, whose arrival time is null,
    the last line reads "Arrival Time: None". *)
Theorem gradio_search_flight_null_time :
  outcome (gradio_search_flight "UAL123") example_world
  = Returned (five_lines "UAL123" "SFO" "ORD" "2024-01-01T10:00Z" "None").
Proof. reflexivity. Qed.

(** For every result and each of its two times: the time is shown as it
    is when there is one, and as None, never N/A, when there is none. *)
Lemma gradio_search_flight_result w number info :
  (∃ d, FlightInfoResponse_json info = JDict d ∧ lookup_answers w number d) →
  outcome (gradio_search_flight number) w
  = Returned
      (five_lines (flight_number info) (origin info) (destination info)
         (default "None" (departure_time info))
         (default "None" (arrival_time info))).
Proof.
  intros (d & [= <-] & Hw).
  rewrite (gradio_search_flight_renders w _ _ Hw) by reflexivity.
  unfold shown. simpl.
  by destruct (departure_time info), (arrival_time info).
Qed.

(** N/A is what the block shows for a key the object lacks. *)
Lemma gradio_search_flight_absent_time w flight_number d :
  lookup_answers w flight_number d →
  dict_lookup "error" d = None →
  dict_lookup "arrival_time" d = None →
  outcome (gradio_search_flight flight_number) w
  = Returned
      (five_lines (shown w d "flight_number") (shown w d "origin")
         (shown w d "destination") (shown w d "departure_time") "N/A").
Proof.
  intros Hw He Ha. rewrite (gradio_search_flight_renders w _ d Hw He).
  by rewrite (shown_absent w d "arrival_time").
Qed.

(** X13: when the Lookup Service answers with a status outside 2xx,
    [raise_for_status] raises and the second [except] clause answers:
    the text is "An unexpected error occurred: " followed by httpx's
    description of the status error.  The body is not read, so an
    [error] field in it is not shown. *)
Lemma gradio_search_flight_bad_status w flight_number r :
  flight_number ≠ "" →
  transport w (lookup_call flight_number) = Returned r →
  status_code r < 200 ∨ 299 < status_code r →
  outcome (gradio_search_flight flight_number) w
  = Returned ("An unexpected error occurred: " +:+ status_error r).
Proof.
  intros Hne Hr Hs.
  rewrite (gradio_search_flight_raised _ _ (Exn HTTPStatusError (status_error r)));
    [done | done |].
  unfold outcome, run, gradio_try, eff_bind, client_post, lift.
  fold (lookup_call flight_number). rewrite Hr. unfold raise_for_status.
  destruct Hs as [Hs|Hs].
  - by rewrite (proj2 (Z.leb_gt 200 (status_code r))) by done.
  - rewrite (proj2 (Z.leb_gt (status_code r) 299)) by done.
    by rewrite andb_false_r.
Qed.

Lemma gradio_search_flight_bad_status_witness :
  outcome (gradio_search_flight "UAL123") (world_of None (Returned bad_gateway))
  = Returned "An unexpected error occurred: Server error '502 Bad Gateway'".
Proof.
  apply (gradio_search_flight_bad_status
           (world_of None (Returned bad_gateway)) "UAL123" bad_gateway);
    [done | reflexivity | by right].
Defined.

Lemma gradio_search_flight_bad_json w flight_number r e :
  flight_number ≠ "" →
  transport w (lookup_call flight_number) = Returned r →
  raise_for_status r = Returned tt →
  json r = Raised e →
  outcome (gradio_search_flight flight_number) w = Returned (exception_text e).
Proof.
  intros Hne Hr Hs He. apply gradio_search_flight_raised; [done|].
  unfold outcome, run, gradio_try, eff_bind, client_post, lift.
  fold (lookup_call flight_number). by rewrite Hr, Hs, He.
Qed.

(** * Further properties of [search_flight] *)

(** ** What a returned result tells *)

Lemma search_flight_returned w request res :
  outcome (search_flight request) w = Returned res →
  (truthy (from_option JStr JNull (environ w !! "FLIGHTAWARE_API_KEY")) = false
   ∧ res = failure "API key is missing")
  ∨ ∃ k r, provider_answers w request k r ∧ read_response w r = Returned res.
Proof.
  unfold outcome.
  destruct (environ w !! "FLIGHTAWARE_API_KEY") as [k|] eqn:Henv.
  - destruct (decide (k = "")) as [->|Hk].
    + rewrite search_flight_unconfigured by (by rewrite Henv).
      intros [= <-]. by left.
    + rewrite (search_flight_configured _ _ k Henv Hk). simpl.
      destruct (transport w (provider_call k request)) as [r|e] eqn:Hr; [|done].
      simpl. intros Hres. right. by exists k, r.
  - rewrite search_flight_unconfigured by (by rewrite Henv).
    intros [= <-]. by left.
Qed.

Lemma read_response_returned {w} r res :
  read_response w r = Returned res →
  (status_code r ≠ 200 ∧
   res = failure ("FlightAware API error: " +:+ pretty (status_code r)
                  +:+ " - " +:+ text r))
  ∨ (status_code r = 200 ∧
     ∃ data, json r = Returned data ∧
       ((py_in "flights" data = Returned false ∨
         ∃ d flights, data = JDict d ∧ dict_lookup "flights" d = Some flights ∧
                      truthy flights = false) ∧
        res = failure "No flight information found"
        ∨ ∃ d x rest, data = JDict d ∧
            dict_lookup "flights" d = Some (JList (x :: rest)) ∧
            first_flight w x = Returned res)).
Proof.
  destruct (decide (status_code r = 200)) as [Hs|Hs].
  - rewrite read_response_200 by done. intros Hres. right. split; [done|].
    destruct (json r) as [data|e]; [|done]. exists data. split; [done|].
    simpl in Hres. destruct (py_in "flights" data) as [[]|e] eqn:Hin; [| |done].
    + destruct data; try discriminate. simpl in Hin, Hres.
      destruct (dict_lookup "flights" d) as [flights|] eqn:Hf; [|done].
      simpl in Hres. destruct (truthy flights) eqn:Ht.
      * right. destruct flights as [| | | | s|[|x rest]|]; try discriminate;
          [by destruct s|]. by exists d, x, rest.
      * left. injection Hres as <-. split; [|done]. right. by exists d, flights.
    + left. injection Hres as <-. split; [|done]. by left.
  - rewrite read_response_not_200 by done. intros [= <-]. by left.
Qed.

Lemma nested_get_returned {B} fi outer inner (K : value → result B) res :
  (py_get (default (JDict []) (dict_lookup outer fi)) inner JNull ≫= K)
  = Returned res →
  absent_or_object fi outer ∧
  K (default JNull (nested_key fi outer inner)) = Returned res.
Proof.
  rewrite nested_get. unfold absent_or_object, nested_key.
  destruct (dict_lookup outer fi) as [[]|]; try discriminate;
    (split; [by intros ? [= <-] | done]).
Qed.

Lemma new_FlightInfoResponse_returned {w} n o d dep arr info :
  new_FlightInfoResponse w n o d dep arr = Returned info →
  n = JStr (flight_number info) ∧ o = JStr (origin info) ∧
  d = JStr (destination info) ∧
  valid_optional_str dep = Some (departure_time info) ∧
  valid_optional_str arr = Some (arrival_time info).
Proof.
  unfold new_FlightInfoResponse.
  destruct (valid_str n) eqn:Hn, (valid_str o) eqn:Ho, (valid_str d) eqn:Hd,
    (valid_optional_str dep), (valid_optional_str arr); try discriminate.
  intros [= <-]. simpl.
  destruct n; try discriminate. destruct o; try discriminate.
  destruct d; try discriminate. by simplify_eq/=.
Qed.

Lemma default_null_text o s :
  default JNull o = JStr s → o = Some (JStr s).
Proof. destruct o; simpl; [by intros ->|done]. Qed.

Lemma valid_optional_str_matches v t :
  valid_optional_str (default JNull v) = Some t ↔ time_matches t v.
Proof.
  destruct v as [[]|], t; simpl; split; try done; try (by intros [= ->]);
    by intros ->.
Qed.

Lemma first_flight_returned {w} x res :
  first_flight w x = Returned res →
  ∃ fi info, x = JDict fi ∧ res = inl info ∧
    Forall (λ p, absent_or_object fi p.1) nested_keys ∧
    dict_lookup "ident" fi = Some (JStr (flight_number info)) ∧
    nested_key fi "origin" "code" = Some (JStr (origin info)) ∧
    nested_key fi "destination" "code" = Some (JStr (destination info)) ∧
    time_matches (departure_time info)
      (nested_key fi "actual_departure_time" "date") ∧
    time_matches (arrival_time info)
      (nested_key fi "actual_arrival_time" "date").
Proof.
  destruct x as [| | | | |  |fi]; try discriminate.
  unfold first_flight. simpl. intros Hres.
  apply nested_get_returned in Hres as [Ho Hres].
  apply nested_get_returned in Hres as [Hd Hres].
  apply nested_get_returned in Hres as [Hdep Hres].
  apply nested_get_returned in Hres as [Harr Hres].
  destruct (new_FlightInfoResponse _ _ _ _ _ _) as [info|e] eqn:Hnew; [|done].
  injection Hres as <-.
  apply new_FlightInfoResponse_returned in Hnew
    as (Hi & Hoc & Hdc & Hdt & Hat).
  exists fi, info. split; [done|]. split; [done|].
  split; [by repeat constructor|].
  repeat split; try by apply default_null_text.
  - by apply valid_optional_str_matches.
  - by apply valid_optional_str_matches.
Qed.

(** X1: in every world [search_flight] makes no outbound call at all, when
    the credential is absent or empty, or exactly one: a GET of the base
    URL followed by the flight number as it was given, with the
    credential as the [x-apikey] header.  It never calls twice, whatever
    the answer. *)
Theorem search_flight_calls (w : World) (request : FlightSearchRequest) :
  (truthy (from_option JStr JNull (environ w !! "FLIGHTAWARE_API_KEY")) = false
   ∧ calls (search_flight request) w = [])
  ∨ ∃ k, environ w !! "FLIGHTAWARE_API_KEY" = Some k ∧ k ≠ "" ∧
         calls (search_flight request) w
         = [Get ("https://aeroapi.flightaware.com/aeroapi/flights/"
                 +:+ request_flight_number request)
                [("x-apikey", JStr k)]].
Proof.
  unfold calls.
  destruct (environ w !! "FLIGHTAWARE_API_KEY") as [k|] eqn:Henv.
  - destruct (decide (k = "")) as [->|Hk].
    + left. by rewrite search_flight_unconfigured by (by rewrite Henv).
    + right. exists k. by rewrite (search_flight_configured _ _ k Henv Hk).
  - left. by rewrite search_flight_unconfigured by (by rewrite Henv).
Qed.

(** X3: a 200 response whose body is not JSON is not turned into a
    failure: the exception of [response.json()] is the outcome of
    [search_flight]. *)
Theorem search_flight_undecodable_body
    (w : World) (request : FlightSearchRequest) (k : string) (r : Response)
    (e : exn) :
  provider_answers w request k r →
  status_code r = 200 →
  json r = Raised e →
  outcome (search_flight request) w = Raised e.
Proof.
  intros Hw Hs He. unfold outcome.
  rewrite (search_flight_answered _ _ k r Hw). simpl.
  by rewrite read_response_200, He.
Qed.

Lemma search_flight_undecodable_body_witness :
  provider_answers (world_of (Some "secret") (Returned undecodable))
    UAL123 "secret" undecodable ∧
  outcome (search_flight UAL123) (world_of (Some "secret") (Returned undecodable))
  = raise JSONDecodeError "Expecting value: line 1 column 1 (char 0)".
Proof.
  split; [by apply world_of_answers|].
  apply (search_flight_undecodable_body _ UAL123 "secret" undecodable);
    [by apply world_of_answers | done | done].
Defined.

Lemma existsb_is_str k l : existsb (is_str k) l = true ↔ JStr k ∈ l.
Proof.
  rewrite existsb_exists. split.
  - intros (v & Hin & Hv). apply list_elem_of_In in Hin.
    destruct v; try discriminate. simpl in Hv.
    by apply String.eqb_eq in Hv as ->.
  - intros Hin. exists (JStr k). split; [by apply list_elem_of_In|].
    simpl. apply String.eqb_refl.
Qed.

(** X6: a 200 response whose body is a JSON array never gives the success
    variant.  Line 80 tests membership: an array that does not hold the
    string "flights" gives the failure "No flight information found"; one
    that holds it fails on [data['flights']] with a [TypeError]. *)
Theorem search_flight_array_body
    (w : World) (request : FlightSearchRequest) (k : string) (r : Response)
    (l : list value) :
  provider_answers w request k r →
  status_code r = 200 →
  json r = Returned (JList l) →
  (JStr "flights" ∉ l →
   outcome (search_flight request) w
   = Returned (failure "No flight information found")) ∧
  (JStr "flights" ∈ l →
   outcome (search_flight request) w
   = raise TypeError "list indices must be integers or slices, not str").
Proof.
  intros Hw Hs Hd. unfold outcome.
  rewrite (search_flight_answered _ _ k r Hw). simpl.
  rewrite read_response_200, Hd by done. simpl.
  destruct (existsb (is_str "flights") l) eqn:Hin.
  - apply existsb_is_str in Hin. by split.
  - split; [done|]. intros Hin'%existsb_is_str. congruence.
Qed.

Lemma search_flight_array_body_witness :
  provider_answers (world_of (Some "secret") (Returned (body_response (JList []))))
    UAL123 "secret" (body_response (JList [])) ∧
  outcome (search_flight UAL123)
    (world_of (Some "secret") (Returned (body_response (JList []))))
  = Returned (failure "No flight information found").
Proof.
  split; [by apply world_of_answers|].
  apply (search_flight_array_body _ UAL123 "secret" (body_response (JList [])) []);
    [by apply world_of_answers | done | done |].
  apply not_elem_of_nil.
Defined.

(** X7: when [flights] is bound to a value that Python takes for true
    but that is not a list, [search_flight] returns neither variant:
    [data['flights'][0]] raises [KeyError] on an object and [TypeError] on
    a number or [true], and on a string it gives a character, on which
    [.get] raises [AttributeError]. *)
Theorem search_flight_flights_not_list
    (w : World) (request : FlightSearchRequest) (k : string) (r : Response)
    (d : list (string * value)) (flights : value) :
  provider_answers w request k r →
  status_code r = 200 →
  json r = Returned (JDict d) →
  dict_lookup "flights" d = Some flights →
  truthy flights = true →
  (∀ l, flights ≠ JList l) →
  ∃ e, outcome (search_flight request) w = Raised e ∧
       exn_cls e = match flights with
                   | JDict _ => KeyError
                   | JStr _ => AttributeError
                   | _ => TypeError
                   end.
Proof.
  intros Hw Hs Hd Hf Ht Hl. unfold outcome.
  rewrite (search_flight_answered _ _ k r Hw). simpl.
  rewrite (read_response_object r d Hs Hd), Hf, Ht.
  destruct flights as [| | | |s|l|]; try discriminate;
    try (by eexists); [|by destruct (Hl l)].
  destruct s; [discriminate|]. by eexists.
Qed.

Lemma search_flight_flights_not_list_witness :
  provider_answers
    (world_of (Some "secret")
       (Returned (body_response (JDict [("flights", JDict example_flight)]))))
    UAL123 "secret" (body_response (JDict [("flights", JDict example_flight)])) ∧
  ∃ e, outcome (search_flight UAL123)
         (world_of (Some "secret")
            (Returned (body_response (JDict [("flights", JDict example_flight)]))))
       = Raised e ∧ exn_cls e = KeyError.
Proof.
  split; [by apply world_of_answers|].
  apply (search_flight_flights_not_list _ UAL123 "secret"
           (body_response (JDict [("flights", JDict example_flight)]))
           [("flights", JDict example_flight)] (JDict example_flight));
    [by apply world_of_answers | done | done | done | done | done].
Defined.

(** X8: when the first element of [flights] is not an object,
    [search_flight] raises the [AttributeError] of [.get] on that
    element and returns neither variant, whatever the elements after
    it. *)
Theorem search_flight_first_not_object
    (w : World) (request : FlightSearchRequest) (k : string) (r : Response)
    (d : list (string * value)) (x : value) (rest : list value) :
  provider_answers w request k r →
  status_code r = 200 →
  json r = Returned (JDict d) →
  dict_lookup "flights" d = Some (JList (x :: rest)) →
  is_object x = false →
  outcome (search_flight request) w = Raised (no_get x).
Proof.
  intros Hw Hs Hd Hf Hx. unfold outcome.
  rewrite (search_flight_answered _ _ k r Hw). simpl.
  rewrite (read_response_object r d Hs Hd), Hf. simpl.
  by destruct x.
Qed.

Lemma search_flight_first_not_object_witness :
  provider_answers
    (world_of (Some "secret")
       (Returned (flights_response [JStr "UAL123"; JDict example_flight])))
    UAL123 "secret" (flights_response [JStr "UAL123"; JDict example_flight]) ∧
  outcome (search_flight UAL123)
    (world_of (Some "secret")
       (Returned (flights_response [JStr "UAL123"; JDict example_flight])))
  = raise AttributeError "'str' object has no attribute 'get'".
Proof.
  split; [by apply world_of_answers|].
  apply (search_flight_first_not_object _ UAL123 "secret"
           (flights_response [JStr "UAL123"; JDict example_flight])
           [("flights", JList [JStr "UAL123"; JDict example_flight])]
           (JStr "UAL123") [JDict example_flight]);
    [by apply world_of_answers | done | done | done | done].
Defined.

(** X9: [search_flight] returns the success variant [info] exactly when
    a credential is configured, the provider answers 200 with an object
    whose [flights] is a non-empty list, the first flight is an object
    whose four nested keys are absent or objects, [ident], [origin.code]
    and [destination.code] are the three strings of [info], and each
    time of [info] is the string at its [date], or is null where the
    [date] is missing or null.  So a success never carries a value that
    is not in the first flight. *)
Theorem search_flight_success
    (w : World) (request : FlightSearchRequest) (info : FlightInfoResponse) :
  outcome (search_flight request) w = Returned (inl info) ↔
  ∃ r fi rest,
    answers_with_flights w request r fi rest ∧
    Forall (λ p, absent_or_object fi p.1) nested_keys ∧
    dict_lookup "ident" fi = Some (JStr (flight_number info)) ∧
    nested_key fi "origin" "code" = Some (JStr (origin info)) ∧
    nested_key fi "destination" "code" = Some (JStr (destination info)) ∧
    time_matches (departure_time info)
      (nested_key fi "actual_departure_time" "date") ∧
    time_matches (arrival_time info)
      (nested_key fi "actual_arrival_time" "date").
Proof.
  split.
  - intros Hres.
    apply search_flight_returned in Hres as [[_ [=]] | (k & r & Hw & Hres)].
    apply read_response_returned in Hres
      as [[_ [=]] | (Hs & data & Hd & [[_ [=]] | (d & x & rest & -> & Hf & Hx)])].
    apply first_flight_returned in Hx as (fi & info' & -> & [= <-] & Hfields).
    exists r, fi, rest. split; [|done].
    split; [by exists k|]. split; [done|]. by exists d.
  - intros (r & fi & rest & Hw & Hobj & Hi & Ho & Hd & Hdep & Harr).
    rewrite (search_flight_first _ _ _ _ _ Hw), (first_flight_objects fi Hobj).
    rewrite Hi, Ho, Hd. simpl. unfold new_FlightInfoResponse. simpl valid_str.
    apply valid_optional_str_matches in Hdep, Harr. rewrite Hdep, Harr.
    by destruct info.
Qed.

Lemma search_flight_success_witness :
  outcome (search_flight UAL123)
    (world_of (Some "secret") (Returned (flights_response [JDict example_flight])))
  = Returned (inl example_result).
Proof.
  apply (proj2 (search_flight_success _ UAL123 example_result)).
  exists (flights_response [JDict example_flight]), example_flight, [].
  split; [by apply world_of_flights|].
  split; [|done].
  repeat constructor; intros v; simpl; intros [= <-]; reflexivity.
Defined.

(** X10: the failure variant carries one of three messages, and each
    tells its cause: "API key is missing" when the credential is absent or
    empty, the "FlightAware API error" message when the provider answered
    with a status other than 200, and "No flight information found" when
    it answered 200. *)
Theorem search_flight_failure
    (w : World) (request : FlightSearchRequest) (e : FlightSearchErrorResponse) :
  outcome (search_flight request) w = Returned (inr e) →
  (truthy (from_option JStr JNull (environ w !! "FLIGHTAWARE_API_KEY")) = false
   ∧ error e = "API key is missing")
  ∨ (∃ k r, provider_answers w request k r ∧ status_code r ≠ 200 ∧
            error e = "FlightAware API error: " +:+ pretty (status_code r)
                      +:+ " - " +:+ text r)
  ∨ (∃ k r, provider_answers w request k r ∧ status_code r = 200 ∧
            error e = "No flight information found").
Proof.
  intros Hres.
  apply search_flight_returned in Hres as [[Hkey [= ->]] | (k & r & Hw & Hres)];
    [by left|].
  right.
  apply read_response_returned in Hres
    as [[Hs [= ->]] | (Hs & data & Hd & [[_ [= ->]] | (d & x & rest & -> & Hf & Hx)])].
  - left. by exists k, r.
  - right. by exists k, r.
  - by apply first_flight_returned in Hx as (fi & info & _ & [=] & _).
Qed.

Lemma search_flight_failure_witness :
  outcome (search_flight UAL123) (world_of (Some "secret") (Returned not_found))
  = Returned (inr {| error := "FlightAware API error: 404 - not found" |}) ∧
  ∃ k r, provider_answers (world_of (Some "secret") (Returned not_found))
           UAL123 k r ∧ status_code r ≠ 200.
Proof.
  split; [reflexivity|].
  destruct (search_flight_failure
              (world_of (Some "secret") (Returned not_found)) UAL123
              {| error := "FlightAware API error: 404 - not found" |} eq_refl)
    as [[Hkey _] | [(k & r & Hw & Hs & _) | (k & r & Hw & Hs & Hmsg)]].
  - discriminate Hkey.
  - by exists k, r.
  - discriminate Hmsg.
Defined.

(** * Further properties of [gradio_search_flight] *)

(** ** The calls it makes *)

Lemma silent_ret {A} (a : A) : silent (eff_ret a).
Proof. by intros w. Qed.

Lemma silent_lift {A} (r : result A) : silent (lift r).
Proof. by intros w. Qed.

Lemma silent_format v : silent (format v).
Proof. by intros w. Qed.

Lemma silent_gradio_except e : silent (gradio_except e).
Proof. intros w. unfold calls. by rewrite run_gradio_except. Qed.

Lemma calls_bind {A B} (m : Eff A) (k : A → Eff B) w :
  (∀ a, silent (k a)) → calls (eff_bind m k) w = calls m w.
Proof.
  intros Hk. unfold calls, run, eff_bind.
  destruct (m w) as [[a|e] t]; [|done].
  specialize (Hk a w). unfold calls, run in Hk.
  destruct (k a w) as [r t']. simpl in *. subst t'. apply app_nil_r.
Qed.

Lemma silent_bind {A B} (m : Eff A) (k : A → Eff B) :
  silent m → (∀ a, silent (k a)) → silent (eff_bind m k).
Proof. intros Hm Hk w. by rewrite calls_bind. Qed.

Lemma calls_try {A} (m : Eff A) (h : exn → Eff A) w :
  (∀ e, silent (h e)) → calls (try_except m h) w = calls m w.
Proof.
  intros Hh. unfold calls, run, try_except.
  destruct (m w) as [[a|e] t]; [done|].
  specialize (Hh e w). unfold calls, run in Hh.
  destruct (h e w) as [r t']. simpl in *. subst t'. apply app_nil_r.
Qed.

Ltac silence :=
  repeat first
    [ apply silent_ret | apply silent_lift | apply silent_format
    | apply silent_bind; [|intros ?]
    | match goal with |- silent (if ?b then _ else _) => destruct b end ].

(** X11: [gradio_search_flight] makes no outbound call on the empty
    input, and on any other input exactly one, whatever comes back: a
    POST to http://127.0.0.1:8000/search_flight whose JSON payload is the
    object with the one key [flight_number], bound to the input as it
    was typed.  Neither [except] clause calls again. *)
Theorem gradio_search_flight_calls (w : World) (flight_number : string) :
  calls (gradio_search_flight flight_number) w
  = if decide (flight_number = "") then []
    else [Post "http://127.0.0.1:8000/search_flight"
            (JDict [("flight_number", JStr flight_number)])].
Proof.
  destruct (decide (flight_number = "")) as [->|Hne]; [reflexivity|].
  rewrite gradio_search_flight_nonempty by done.
  rewrite calls_try by apply silent_gradio_except.
  unfold gradio_try. rewrite calls_bind; [reflexivity|].
  intros response. silence.
Qed.

(** ** What it shows *)

(** X12: when the decoded body is an object with an [error] key bound to
    a string, the text is "Error: " followed by that string, whatever
    else the object holds. *)
Theorem gradio_search_flight_error_field
    (w : World) (flight_number : string) (d : list (string * value))
    (msg : string) :
  lookup_answers w flight_number d →
  dict_lookup "error" d = Some (JStr msg) →
  outcome (gradio_search_flight flight_number) w = Returned ("Error: " +:+ msg).
Proof.
  intros Hw He. by rewrite (gradio_search_flight_answered w _ d Hw), He.
Qed.

Lemma world_of_lookup_answers key flight_number d :
  flight_number ≠ "" →
  lookup_answers (world_of key (Returned (body_response (JDict d))))
    flight_number d.
Proof. intros Hne. split; [done|]. by eexists. Qed.

Lemma gradio_search_flight_error_field_witness :
  outcome (gradio_search_flight "UAL123")
    (world_of None
       (Returned (body_response
                    (JDict [("error", JStr "API key is missing");
                            ("origin", JStr "SFO")]))))
  = Returned "Error: API key is missing".
Proof.
  apply (gradio_search_flight_error_field _ "UAL123"
           [("error", JStr "API key is missing"); ("origin", JStr "SFO")]);
    [by apply world_of_lookup_answers | reflexivity].
Defined.

(** X14: a 2xx response whose decoded body is not an object (an array,
    a string, a number, a boolean, [null]) is shown neither as a result
    nor as an error of the service: the [in] test, the subscript or
    [.get] raises, and the text is "An unexpected error occurred: "
    followed by Python's description. *)
Theorem gradio_search_flight_not_object
    (w : World) (flight_number : string) (r : Response) (data : value) :
  flight_number ≠ "" →
  transport w (lookup_call flight_number) = Returned r →
  raise_for_status r = Returned tt →
  json r = Returned data →
  is_object data = false →
  ∃ descr,
    outcome (gradio_search_flight flight_number) w
    = Returned ("An unexpected error occurred: " +:+ descr).
Proof.
  intros Hne Hr Hs Hd Hobj.
  rewrite gradio_search_flight_nonempty by done.
  unfold outcome, run, try_except, gradio_try, eff_bind, client_post, lift.
  fold (lookup_call flight_number). rewrite Hr, Hs, Hd.
  destruct data as [| | | |s|l|]; try discriminate; simpl; try (by eexists).
  - destruct (str_contains "error" s); by eexists.
  - destruct (existsb (is_str "error") l); by eexists.
Qed.

Lemma gradio_search_flight_not_object_witness :
  json (body_response (JList [])) = Returned (JList []) ∧
  ∃ descr,
    outcome (gradio_search_flight "UAL123")
      (world_of None (Returned (body_response (JList []))))
    = Returned ("An unexpected error occurred: " +:+ descr).
Proof.
  split; [reflexivity|].
  apply (gradio_search_flight_not_object _ "UAL123"
           (body_response (JList [])) (JList []));
    [done | reflexivity ..].
Defined.

Lemma shown_text_or_na w d key :
  absent_or_text d key → shown w d key = text_or_na d key.
Proof.
  unfold shown, text_or_na. by intros [-> | [s ->]].
Qed.

(** X15: for an object without an [error] key in which each of the five
    keys is absent or bound to a string, the text is the block of five
    labelled lines, each showing its string as it is, or N/A where the
    key is absent. *)
Theorem gradio_search_flight_text_fields
    (w : World) (flight_number : string) (d : list (string * value)) :
  lookup_answers w flight_number d →
  dict_lookup "error" d = None →
  Forall (absent_or_text d) result_keys →
  outcome (gradio_search_flight flight_number) w
  = Returned
      (five_lines (text_or_na d "flight_number") (text_or_na d "origin")
         (text_or_na d "destination") (text_or_na d "departure_time")
         (text_or_na d "arrival_time")).
Proof.
  intros Hw He Hkeys. rewrite (gradio_search_flight_renders w _ d Hw He).
  repeat (apply Forall_cons in Hkeys as [? Hkeys]).
  by rewrite !shown_text_or_na.
Qed.

Lemma gradio_search_flight_text_fields_witness :
  Forall (absent_or_text partial_result) result_keys ∧
  outcome (gradio_search_flight "UAL123")
    (world_of None (Returned (body_response (JDict partial_result))))
  = Returned (five_lines "UAL123" "SFO" "N/A" "N/A" "N/A").
Proof.
  assert (Forall (absent_or_text partial_result) result_keys) as Hkeys.
  { repeat (apply List.Forall_cons; [first [by left | right; by eexists]|]).
    apply List.Forall_nil. }
  split; [exact Hkeys|].
  apply (gradio_search_flight_text_fields _ "UAL123" partial_result);
    [by apply world_of_lookup_answers | reflexivity | exact Hkeys].
Defined.

Lemma gradio_try_returned url payload w s :
  outcome (gradio_try url payload) w = Returned s →
  (∃ msg, s = "Error: " +:+ msg) ∨
  (∃ number origin destination departure arrival,
     s = five_lines number origin destination departure arrival).
Proof.
  unfold outcome, run, gradio_try, eff_bind, client_post, lift, format, eff_ret.
  destruct (transport w (Post url payload)) as [r|e]; [|done].
  destruct (raise_for_status r); [|done].
  destruct (json r) as [data|e]; [|done].
  destruct (py_in "error" data) as [[]|e]; [| |done].
  - destruct (py_getitem_key data "error"); [|done].
    simpl. intros [= <-]. left. by eexists.
  - destruct data; try done. simpl. intros [= <-]. right.
    by eexists _, _, _, _, _.
Qed.

(** X16: whatever the input and whatever the network does, the text
    [gradio_search_flight] returns is the prompt, or begins with
    "Error: ", or is a block of the five labelled lines, or begins with
    one of the two error phrases of the [except] clauses. *)
Theorem gradio_search_flight_shapes (w : World) (flight_number : string) :
  ∃ s, outcome (gradio_search_flight flight_number) w = Returned s ∧
    (s = "Please enter a flight number."
     ∨ (∃ msg, s = "Error: " +:+ msg)
     ∨ (∃ number origin destination departure arrival,
          s = five_lines number origin destination departure arrival)
     ∨ (∃ descr, s = "An error occurred while requesting flight information: "
                     +:+ descr)
     ∨ (∃ descr, s = "An unexpected error occurred: " +:+ descr)).
Proof.
  destruct (decide (flight_number = "")) as [->|Hne].
  { eexists. split; [reflexivity|]. by left. }
  destruct (outcome (gradio_try lookup_url
                       (JDict [("flight_number", JStr flight_number)])) w)
    as [s|e] eqn:Htry.
  - exists s. split.
    + rewrite gradio_search_flight_nonempty by done. unfold outcome in *.
      destruct (run (gradio_try _ _) w) as [res t] eqn:Hrun.
      simpl in Htry. subst res. by rewrite (run_try_returned _ _ _ _ _ Hrun).
    + right. apply gradio_try_returned in Htry as [?|?]; [by left|by right; left].
  - exists (exception_text e). split; [by apply gradio_search_flight_raised|].
    right. right. right. unfold exception_text.
    destruct (bool_decide (exn_cls e = RequestError)); [left|right]; by eexists.
Qed.
